(** * Change-set reconciliation of [demisto_sdk/commands/common/git_util.py]

    A shallow embedding of the class [GitUtil]: the four public queries
    [modified_files], [added_files], [deleted_files], [renamed_files] and
    the two private helpers [_get_untracked_files] and
    [_get_all_changed_files], followed by the properties the specification
    states about them.

    The version-control engine (GitPython's [Repo]) is a collaborator; a
    value of type [Repo] below is one snapshot of the answers it gives to
    the calls the class issues, failed calls included.  Python sets are
    [gset]s, exceptions are the [Raise] branch of [result], and Python
    text is [string], a character being a code point below 256. *)

From Stdlib Require Import Ascii String List Bool Arith Lia.
From stdpp Require Import base option list gmap sets strings.

Local Open Scope string_scope.

(** ** Python text operations used by the class *)
Module PyStr.

(** [c.isspace()]: TAB, LF, VT, FF, CR, the four separators FS..US, the
    space, NEL (U+0085) and the no-break space (U+00A0). *)
Definition isspace (c : ascii) : bool :=
  let n := nat_of_ascii c in
  ((9 <=? n)%nat && (n <=? 13)%nat) || ((28 <=? n)%nat && (n <=? 32)%nat)
  || (n =? 133)%nat || (n =? 160)%nat.

(** [c.upper()] on the ASCII range; a code point above it is left as it
    is (Python maps it to a code point above the ASCII range as well, or
    to ["SS"] for U+00DF, so that the comparison with a status letter,
    the one use of [upper] in the class, comes out the same). *)
Definition upper_char (c : ascii) : ascii :=
  let n := nat_of_ascii c in
  if ((97 <=? n)%nat && (n <=? 122)%nat) then ascii_of_nat (n - 32) else c.

(** [s.upper()] *)
Fixpoint upper (s : string) : string :=
  match s with
  | EmptyString => EmptyString
  | String c s' => String (upper_char c) (upper s')
  end.

(** [s.startswith(p)] *)
Definition startswith (s p : string) : bool := String.prefix p s.

(** [s.split(sep)] for a one-character separator: the fields between the
    separators, empty fields kept; the result is never the empty list. *)
Fixpoint split_on (sep : ascii) (s : string) : list string :=
  match s with
  | EmptyString => [EmptyString]
  | String c s' =>
      if Ascii.eqb c sep then EmptyString :: split_on sep s'
      else match split_on sep s' with
           | field :: fields => String c field :: fields
           | [] => [String c EmptyString]
           end
  end.

(** [s.lstrip()], [s.rstrip()] and [s.strip()] *)
Fixpoint lstrip (s : string) : string :=
  match s with
  | EmptyString => EmptyString
  | String c s' => if isspace c then lstrip s' else s
  end.

Fixpoint rstrip (s : string) : string :=
  match s with
  | EmptyString => EmptyString
  | String c s' =>
      match rstrip s' with
      | EmptyString => if isspace c then EmptyString else String c EmptyString
      | r => String c r
      end
  end.

Definition strip (s : string) : string := rstrip (lstrip s).

(** [s.split()] with no argument: the maximal runs of non-whitespace
    characters.  [cur] is the run being read, in reverse. *)
Fixpoint split_ws_aux (cur : list ascii) (s : string) : list string :=
  let flush := match cur with
               | [] => []
               | _ => [string_of_list_ascii (rev cur)]
               end in
  match s with
  | EmptyString => flush
  | String c s' =>
      if isspace c then (flush ++ split_ws_aux [] s')%list
      else split_ws_aux (c :: cur) s'
  end.

Definition split_ws (s : string) : list string := split_ws_aux [] s.

(** [s.replace(old, new)] for a non-empty [old]: occurrences are found
    from the left and do not overlap.  [skip] counts the characters of
    the occurrence just replaced that are still to be dropped. *)
Fixpoint replace_aux (old new : string) (skip : nat) (s : string) : string :=
  match s with
  | EmptyString => EmptyString
  | String c s' =>
      match skip with
      | S k => replace_aux old new k s'
      | O =>
          if String.prefix old s
          then new ++ replace_aux old new (String.length old - 1) s'
          else String c (replace_aux old new 0 s')
      end
  end.

Definition replace (old new s : string) : string := replace_aux old new 0 s.

End PyStr.

(** ** Exceptions and results *)

(** The exceptions the version-control engine raises on its own account:
    [ValueError] ([remote()] without a remote named [origin],
    [head.commit] before the first commit), [TypeError] ([active_branch]
    on a detached [HEAD]) and [GitCommandError] (a [git] command that
    exits with an error: [git diff a...b] without a merge base,
    [git status] outside a work tree). *)
Inductive git_exn : Type :=
| ValueError (msg : string)
| TypeError (msg : string)
| GitCommandError (command : string).

Inductive exn : Type :=
| InvalidGitRepositoryError (msg : string)
    (** raised by [GitUtil.__init__] *)
| IndexError_no_item (id : string)
    (** [IndexError("No item found with id %r")] of [remote().refs[name]] *)
| IndexError_list_index
    (** [IndexError("list index out of range")] of [tokens[i]] *)
| Raised_by_git (e : git_exn).
    (** an exception of the engine; the class catches none *)

Inductive result (A : Type) : Type :=
| Ok (a : A)
| Raise (e : exn).
Arguments Ok {A} a.
Arguments Raise {A} e.

#[global] Instance result_ret : MRet result := λ A a, Ok a.
#[global] Instance result_bind : MBind result := λ A B f m,
  match m with
  | Ok a => f a
  | Raise e => Raise e
  end.

(** [l[0]], [l[-1]] and [l[-2]] on a Python list *)
Definition item_first {A} (l : list A) : result A :=
  match l with
  | x :: _ => Ok x
  | [] => Raise IndexError_list_index
  end.

Definition item_last {A} (l : list A) : result A := item_first (rev l).

Definition item_last_but_one {A} (l : list A) : result A :=
  match rev l with
  | _ :: x :: _ => Ok x
  | _ => Raise IndexError_list_index
  end.

(** ** Paths

    [pathlib.Path] on a POSIX system.  A path is compared and hashed by
    its list of parts: the root (["/"], or ["//"] for exactly two leading
    slashes) when the text is absolute, then the components that are
    neither empty nor ["."]. *)

Definition Path : Type := list string.

Definition path_root (s : string) : list string :=
  match s with
  | String "/" (String "/" (String "/" _)) => ["/"]
  | String "/" (String "/" _) => ["//"]
  | String "/" _ => ["/"]
  | _ => []
  end.

Definition is_component (x : string) : bool :=
  negb (String.eqb x "") && negb (String.eqb x ".").

(** [Path(s)] *)
Definition mkPath (s : string) : Path :=
  (path_root s ++ filter (λ x, is_component x = true) (PyStr.split_on "/" s))%list.

(** [str(p)] *)
Definition Path_str (p : Path) : string :=
  match p with
  | [] => "."
  | r :: parts =>
      if PyStr.startswith r "/" then r ++ String.concat "/" parts
      else String.concat "/" (r :: parts)
  end.

(** [os.path.join(a)] with a single argument *)
Definition os_path_join (a : string) : string := a.


(** ** The collaborator: one snapshot of the repository *)

(** GitPython's [Diff.change_type] letters. *)
Inductive change_type_t : Type := ct_A | ct_C | ct_D | ct_R | ct_M | ct_T.

#[global] Instance change_type_eq_dec : EqDecision change_type_t.
Proof. solve_decision. Defined.

(** One entry of a [DiffIndex], as [Commit.diff] reads it off a line of
    [git diff --raw -M]: the status letter, the path before the change
    and the path after it (they differ for renames and copies), and the
    two blob ids of the line, [None] standing for the null id. *)
Record Diff : Type := mkDiff {
  change_type : change_type_t;
  a_path : string;
  b_path : string;
  a_blob_id : option string;
  b_blob_id : option string;
}.

(** The attributes the reader derives from the line: an added entry has no
    [a_blob], a deleted one no [b_blob], and the four flags follow the
    status letter ([renamed_file] compares [rename_from] and [rename_to],
    which are set for the letter [R] only). *)
Definition a_blob (item : Diff) : option string :=
  if decide (change_type item = ct_A) then None else a_blob_id item.

Definition b_blob (item : Diff) : option string :=
  if decide (change_type item = ct_D) then None else b_blob_id item.

Definition new_file (item : Diff) : bool :=
  bool_decide (change_type item = ct_A).

Definition deleted_file (item : Diff) : bool :=
  bool_decide (change_type item = ct_D).

Definition copied_file (item : Diff) : bool :=
  bool_decide (change_type item = ct_C).

Definition renamed_file (item : Diff) : bool :=
  bool_decide (change_type item = ct_R)
  && negb (String.eqb (a_path item) (b_path item)).

(** [a_blob and b_blob and a_blob != b_blob]: blobs compare by id. *)
Definition blobs_differ (item : Diff) : bool :=
  match a_blob item, b_blob item with
  | Some a, Some b => negb (String.eqb a b)
  | _, _ => false
  end.

(** The test of [DiffIndex.iter_change_type] on one entry.  Asked for
    ['M'] it also lets through every entry whose two blobs differ: an
    edited rename or copy and a type change. *)
Definition yields (ct : change_type_t) (diffidx : Diff) : bool :=
  if decide (change_type diffidx = ct) then true
  else if bool_decide (ct = ct_A) && new_file diffidx then true
  else if bool_decide (ct = ct_D) && deleted_file diffidx then true
  else if bool_decide (ct = ct_C) && copied_file diffidx then true
  else if bool_decide (ct = ct_R) && renamed_file diffidx then true
  else if bool_decide (ct = ct_M) && blobs_differ diffidx then true
  else false.

(** [diffs.iter_change_type(ct)] *)
Definition iter_change_type (diffs : list Diff) (ct : change_type_t) : list Diff :=
  filter (λ item, yields ct item = true) diffs.

(** What the engine does with one call: it answers, or it raises. *)
Inductive answer (A : Type) : Type :=
| Answer (a : A)
| Failure (e : git_exn).
Arguments Answer {A} a.
Arguments Failure {A} e.

Definition call {A} (x : answer A) : result A :=
  match x with
  | Answer a => Ok a
  | Failure e => Raise (Raised_by_git e)
  end.

(** The repository at one moment: what each call of the class gives. *)
Record Repo : Type := mkRepo {
  (** [remote().refs]: each remote-tracking reference by its full name
      (["origin/master"]) with what [ref.commit.diff(active_branch)]
      gives; the failure is that of [remote()] *)
  remote_refs : answer (list (string * answer (list Diff)));
  (** [str(active_branch)] *)
  active_branch : answer string;
  (** [head.commit.diff()]: the last commit against the index *)
  head_commit_diff : answer (list Diff);
  (** the text of [git.status('--short', '-u')] *)
  git_status : answer string;
  (** the text of [git.diff('--name-only', range)] *)
  git_diff_name_only : string → answer string;
}.

(** [refs[name]]: [IterableList] looks the name up behind the prefix
    ["origin/"] and raises [IndexError] when no reference has it. *)
Fixpoint refs_find {A} (refs : list (string * A)) (full : string) : option A :=
  match refs with
  | [] => None
  | (name, ref) :: refs' =>
      if String.eqb name full then Some ref else refs_find refs' full
  end.

Definition refs_getitem {A} (refs : list (string * A)) (name : string)
  : result A :=
  match refs_find refs ("origin/" ++ name) with
  | Some ref => Ok ref
  | None => Raise (IndexError_no_item ("origin/" ++ name))
  end.

(** [repo.remote().refs[prev_ver].commit.diff(repo.active_branch)], in the
    order Python evaluates it: the remote, the reference, then the
    argument and the call. *)
Definition remote_commit_diff (r : Repo) (prev_ver : string)
  : result (list Diff) :=
  refs ← call (remote_refs r);
  ref ← refs_getitem refs prev_ver;
  _ ← call (active_branch r);
  call ref.

(** ** The class *)

Record GitUtil : Type := mkGitUtil { repo : Repo }.

(** [GitUtil.__init__(repo)].  [discovered] is what
    [Repo(Path.cwd(), search_parent_directories=True)] finds, [None] when
    it raises [InvalidGitRepositoryError]. *)
Definition GitUtil_init (discovered : option Repo) (repo : option Repo)
  : result GitUtil :=
  match repo with
  | None =>
      match discovered with
      | Some r => Ok (mkGitUtil r)
      | None =>
          Raise (InvalidGitRepositoryError
                   "Unable to find Repository from current working directory - aboring")
      end
  | Some r => Ok (mkGitUtil r)
  end.

(** The set a call of [_get_untracked_files] builds holds paths, or pairs
    of paths when the requested status is ['R']; the two kinds of element
    are kept in two typed components. *)
Record Extracted : Type := mkExtracted {
  ex_paths : gset Path;
  ex_pairs : gset (Path * Path);
}.

(** The body of the loop of [_get_untracked_files] for one line. *)
Definition untracked_line (requested_status : string)
    (extracted_paths : Extracted) (line : string) : result Extracted :=
  let line := PyStr.strip line in
  file_status ←
    (if negb (PyStr.startswith line "?")
     then token ← item_first (PyStr.split_ws line); mret (PyStr.upper token)
     else mret "A");
  if String.eqb file_status requested_status then
    if String.eqb requested_status "R" then
      old ← item_last_but_one (PyStr.split_ws line);
      new ← item_last (PyStr.split_ws line);
      mret (mkExtracted (ex_paths extracted_paths)
              ({[ (mkPath old, mkPath new) ]} ∪ ex_pairs extracted_paths))
    else
      path ← item_last (PyStr.split_ws line);
      mret (mkExtracted ({[ mkPath path ]} ∪ ex_paths extracted_paths)
              (ex_pairs extracted_paths))
  else mret extracted_paths.

Fixpoint untracked_loop (requested_status : string)
    (extracted_paths : Extracted) (lines : list string) : result Extracted :=
  match lines with
  | [] => mret extracted_paths
  | line :: lines' =>
      extracted_paths ← untracked_line requested_status extracted_paths line;
      untracked_loop requested_status extracted_paths lines'
  end.

Definition _get_untracked_files (self : GitUtil) (requested_status : string)
  : result Extracted :=
  text ← call (git_status (repo self));
  let git_status := PyStr.split_on "010" text in
  match git_status with
  | [""] => mret (mkExtracted ∅ ∅)
  | _ => untracked_loop requested_status (mkExtracted ∅ ∅) git_status
  end.

(** The first line of [_get_all_changed_files]: the reference the
    name-only diff is asked about. *)
Definition origin_prev_ver (prev_ver : string) : string :=
  if PyStr.startswith prev_ver "origin/" then prev_ver
  else "origin/" ++ prev_ver.

Definition _get_all_changed_files (self : GitUtil) (prev_ver : string)
  : result (gset Path) :=
  let origin_prev_ver := origin_prev_ver prev_ver in
  active_branch ← call (active_branch (repo self));
  text ← call (git_diff_name_only (repo self)
                 (origin_prev_ver ++ "..." ++ active_branch));
  mret (list_to_set
          ((λ item, mkPath (os_path_join item)) <$> PyStr.split_on "010" text)).

Definition deleted_files (self : GitUtil) (prev_ver : string)
    (committed_only staged_only : bool) : result (gset Path) :=
  let prev_ver := PyStr.replace "origin/" "" prev_ver in
  diffs ← remote_commit_diff (repo self) prev_ver;
  let committed : gset Path :=
    list_to_set ((λ item, mkPath (os_path_join (a_path item))) <$>
                 iter_change_type diffs ct_D) in
  all_branch_changed_files ← _get_all_changed_files self prev_ver;
  let committed := committed ∩ all_branch_changed_files in
  if committed_only then mret committed else
  untracked ← _get_untracked_files self "D";
  index ← call (head_commit_diff (repo self));
  let staged : gset Path :=
    list_to_set ((λ item, mkPath (os_path_join (a_path item))) <$>
                 iter_change_type index ct_D)
    ∪ ex_paths untracked in
  if staged_only then mret staged else
  mret (staged ∪ committed).

Definition renamed_files (self : GitUtil) (prev_ver : string)
    (committed_only staged_only : bool) : result (gset (Path * Path)) :=
  let prev_ver := PyStr.replace "origin/" "" prev_ver in
  deleted ← deleted_files self prev_ver committed_only staged_only;
  diffs ← remote_commit_diff (repo self) prev_ver;
  let committed : gset (Path * Path) :=
    list_to_set ((λ item, (mkPath (a_path item), mkPath (b_path item))) <$>
                 iter_change_type diffs ct_R) in
  all_branch_changed_files ← _get_all_changed_files self prev_ver;
  let committed :=
    filter (λ tuple_item, tuple_item.2 ∈ all_branch_changed_files
                          ∧ tuple_item.2 ∉ deleted) committed in
  if committed_only then mret committed else
  untracked ← _get_untracked_files self "R";
  index ← call (head_commit_diff (repo self));
  let staged : gset (Path * Path) :=
    list_to_set ((λ item, (mkPath (a_path item), mkPath (b_path item))) <$>
                 iter_change_type index ct_R)
    ∪ ex_pairs untracked in
  if staged_only then mret staged else
  mret (staged ∪ committed).

Definition modified_files (self : GitUtil) (prev_ver : string)
    (committed_only staged_only : bool) : result (gset Path) :=
  let prev_ver := PyStr.replace "origin/" "" prev_ver in
  renamed_pairs ← renamed_files self prev_ver committed_only staged_only;
  let renamed : gset Path := set_map fst renamed_pairs in
  deleted ← deleted_files self prev_ver committed_only staged_only;
  diffs ← remote_commit_diff (repo self) prev_ver;
  let committed : gset Path :=
    list_to_set ((λ item, mkPath (os_path_join (a_path item))) <$>
                 iter_change_type diffs ct_M) in
  all_branch_changed_files ← _get_all_changed_files self prev_ver;
  let committed := committed ∩ all_branch_changed_files in
  if committed_only then mret (committed ∖ renamed ∖ deleted) else
  untracked ← _get_untracked_files self "M";
  index ← call (head_commit_diff (repo self));
  let staged : gset Path :=
    list_to_set ((λ item, mkPath (os_path_join (a_path item))) <$>
                 iter_change_type index ct_M)
    ∪ ex_paths untracked in
  diffs' ← remote_commit_diff (repo self) prev_ver;
  let committed_added : gset Path :=
    list_to_set ((λ item, mkPath (os_path_join (a_path item))) <$>
                 iter_change_type diffs' ct_A) in
  let staged := staged ∖ committed_added in
  if staged_only then mret (staged ∖ renamed ∖ deleted) else
  mret ((staged ∪ committed) ∖ renamed ∖ deleted).

Definition added_files (self : GitUtil) (prev_ver : string)
    (committed_only staged_only : bool) : result (gset Path) :=
  let prev_ver := PyStr.replace "origin/" "" prev_ver in
  deleted ← deleted_files self prev_ver committed_only staged_only;
  diffs ← remote_commit_diff (repo self) prev_ver;
  let committed : gset Path :=
    list_to_set ((λ item, mkPath (os_path_join (a_path item))) <$>
                 iter_change_type diffs ct_A) in
  all_branch_changed_files ← _get_all_changed_files self prev_ver;
  let committed := committed ∩ all_branch_changed_files in
  if committed_only then mret (committed ∖ deleted) else
  untracked ← _get_untracked_files self "A";
  index ← call (head_commit_diff (repo self));
  let staged : gset Path :=
    list_to_set ((λ item, mkPath (os_path_join (a_path item))) <$>
                 iter_change_type index ct_A)
    ∪ ex_paths untracked in
  index' ← call (head_commit_diff (repo self));
  let committed_added_locally_modified : gset Path :=
    list_to_set ((λ item, mkPath (os_path_join (a_path item))) <$>
                 iter_change_type index' ct_M)
    ∩ committed in
  let staged := staged ∪ committed_added_locally_modified in
  if staged_only then mret (staged ∖ deleted) else
  mret ((staged ∪ committed) ∖ deleted).

(** ** Vocabulary of the specification *)

(** The local name a caller's reference is reduced to: every query starts
    with [prev_ver = prev_ver.replace('origin/', '')]. *)
Definition stripped (reference : string) : string :=
  PyStr.replace "origin/" "" reference.

(** Stripping a stripped name changes nothing.  It holds for every name
    whose stripped form does not spell ["origin/"] again. *)
Definition stable (reference : string) : Prop :=
  stripped (stripped reference) = stripped reference.

(** The branch-relevance filter set of a reference (no path when the
    name-only diff cannot be had). *)
Definition relevance_filter (self : GitUtil) (reference : string) : gset Path :=
  match _get_all_changed_files self (stripped reference) with
  | Ok paths => paths
  | Raise _ => ∅
  end.

(** The paths a diff reports with a given kind, and the pairs it reports
    as renames. *)
Definition path_set (diffs : list Diff) (ct : change_type_t) : gset Path :=
  list_to_set ((λ item, mkPath (os_path_join (a_path item))) <$>
               iter_change_type diffs ct).

Definition pair_set (diffs : list Diff) : gset (Path * Path) :=
  list_to_set ((λ item, (mkPath (a_path item), mkPath (b_path item))) <$>
               iter_change_type diffs ct_R).

(** The committed diff from the reference to the branch tip (no entry
    when the reference does not resolve or the diff cannot be had), and
    the diff from the last commit to the index. *)
Definition committed_diff (self : GitUtil) (reference : string) : list Diff :=
  match remote_commit_diff (repo self) (stripped reference) with
  | Ok diffs => diffs
  | Raise _ => []
  end.

Definition index_diff (self : GitUtil) : list Diff :=
  match call (head_commit_diff (repo self)) with
  | Ok diffs => diffs
  | Raise _ => []
  end.

(** The paths the status text reports with a given status letter. *)
Definition untracked_paths (self : GitUtil) (status : string) : gset Path :=
  match _get_untracked_files self status with
  | Ok extracted => ex_paths extracted
  | Raise _ => ∅
  end.

Definition letter (ct : change_type_t) : string :=
  match ct with
  | ct_A => "A" | ct_C => "C" | ct_D => "D"
  | ct_R => "R" | ct_M => "M" | ct_T => "T"
  end.





(** What the raw inputs report with a given kind: the committed diff on
    one side, the index diff and the status text on the other. *)
Definition committed_reports (self : GitUtil) (reference : string)
    (ct : change_type_t) : gset Path :=
  path_set (committed_diff self reference) ct.

Definition staged_reports (self : GitUtil) (ct : change_type_t) : gset Path :=
  path_set (index_diff self) ct ∪ untracked_paths self (letter ct).

(** The target paths and the source paths of a set of renamed pairs. *)
Definition targets (pairs : gset (Path * Path)) : gset Path := set_map snd pairs.
Definition sources (pairs : gset (Path * Path)) : gset Path := set_map fst pairs.

(** ** The invariants as the specification words them

    Each is a proposition about one query (or one snapshot); the theorems
    below either prove it or settle what holds in its place. *)

(** Rename precedence: no target of a renamed pair is reported added,
    modified or deleted.  The claim has one part for each of the three
    queries. *)
Definition targets_excluded_stated
    (query : GitUtil → string → bool → bool → result (gset Path))
    (self : GitUtil) (reference : string) (committed_only staged_only : bool)
  : Prop :=
  ∀ pairs X,
    renamed_files self reference committed_only staged_only = Ok pairs →
    query self reference committed_only staged_only = Ok X →
    targets pairs ## X.

Definition rename_precedence_stated (self : GitUtil) (reference : string)
    (committed_only staged_only : bool) : Prop :=
  targets_excluded_stated added_files self reference committed_only staged_only ∧
  targets_excluded_stated modified_files self reference committed_only staged_only ∧
  targets_excluded_stated deleted_files self reference committed_only staged_only.

(** The three modes of one query: the restricted results lie in the
    unrestricted one, which is their union. *)
Definition modes_agree {A} `{Countable A}
    (query : bool → bool → result (gset A)) : Prop :=
  ∀ C S U, query true false = Ok C → query false true = Ok S →
           query false false = Ok U →
    C ⊆ U ∧ S ⊆ U ∧ U = C ∪ S.

Definition mode_union_stated (self : GitUtil) (reference : string) : Prop :=
  modes_agree (added_files self reference) ∧
  modes_agree (modified_files self reference) ∧
  modes_agree (deleted_files self reference) ∧
  modes_agree (renamed_files self reference).


(** Delete precedence: a deleted path is neither modified nor the target
    of a renamed pair. *)
Definition delete_precedence_stated (self : GitUtil) (reference : string)
    (committed_only staged_only : bool) : Prop :=
  ∀ D, deleted_files self reference committed_only staged_only = Ok D →
  ∀ p, p ∈ D →
    (∀ X, modified_files self reference committed_only staged_only = Ok X → p ∉ X) ∧
    (∀ pairs, renamed_files self reference committed_only staged_only = Ok pairs →
       p ∉ targets pairs).

(** Uniqueness of the reported status. *)
Definition unique_status_stated (self : GitUtil) (reference : string)
    (committed_only staged_only : bool) : Prop :=
  ∀ A M D pairs,
    added_files self reference committed_only staged_only = Ok A →
    modified_files self reference committed_only staged_only = Ok M →
    deleted_files self reference committed_only staged_only = Ok D →
    renamed_files self reference committed_only staged_only = Ok pairs →
    A ## M ∧ A ## D ∧ M ## D ∧
    targets pairs ## A ∧ targets pairs ## M ∧ targets pairs ## D.

(** Construction fails exactly when nothing can be located from the
    working directory. *)
Definition construction_stated (discovered repo : option Repo) : Prop :=
  (∃ msg, GitUtil_init discovered repo = Raise (InvalidGitRepositoryError msg))
  ↔ discovered = None.

(** A query fails with the unknown-reference error exactly when the
    reference does not resolve: the remote has no reference of that
    name. *)
Definition resolves (self : GitUtil) (reference : string) : Prop :=
  ∃ refs, remote_refs (repo self) = Answer refs ∧
          is_Some (refs_find refs ("origin/" ++ stripped reference)).

Definition unknown_reference {A} (r : result A) : Prop :=
  ∃ id, r = Raise (IndexError_no_item id).

Definition returns {A} (r : result A) : Prop := ∃ a, r = Ok a.

Definition reference_errors_stated (self : GitUtil) (reference : string)
    (committed_only staged_only : bool) : Prop :=
  (unknown_reference (added_files self reference committed_only staged_only)
     ↔ ¬ resolves self reference) ∧
  (unknown_reference (modified_files self reference committed_only staged_only)
     ↔ ¬ resolves self reference) ∧
  (unknown_reference (deleted_files self reference committed_only staged_only)
     ↔ ¬ resolves self reference) ∧
  (unknown_reference (renamed_files self reference committed_only staged_only)
     ↔ ¬ resolves self reference).



Definition never_raises_stated (self : GitUtil) (reference : string)
    (committed_only staged_only : bool) : Prop :=
  resolves self reference →
  returns (added_files self reference committed_only staged_only) ∧
  returns (modified_files self reference committed_only staged_only) ∧
  returns (deleted_files self reference committed_only staged_only) ∧
  returns (renamed_files self reference committed_only staged_only).

(** No change anywhere: the committed diff, the name-only diff and the
    index diff are empty and so is the status text. *)
Definition no_changes (self : GitUtil) (reference : string) : Prop :=
  remote_commit_diff (repo self) (stripped reference) = Ok [] ∧
  (∃ branch, active_branch (repo self) = Answer branch ∧
     git_diff_name_only (repo self)
       (origin_prev_ver (stripped reference) ++ "..." ++ branch) = Answer "") ∧
  head_commit_diff (repo self) = Answer [] ∧
  git_status (repo self) = Answer "".

Definition empty_results (self : GitUtil) (reference : string)
    (committed_only staged_only : bool) : Prop :=
  added_files self reference committed_only staged_only = Ok ∅ ∧
  modified_files self reference committed_only staged_only = Ok ∅ ∧
  deleted_files self reference committed_only staged_only = Ok ∅ ∧
  renamed_files self reference committed_only staged_only = Ok ∅.

Definition error_behaviour_stated : Prop :=
  (∀ discovered repo, construction_stated discovered repo) ∧
  (∀ self reference committed_only staged_only,
     reference_errors_stated self reference committed_only staged_only ∧
     never_raises_stated self reference committed_only staged_only ∧
     (no_changes self reference →
      empty_results self reference committed_only staged_only)).

(** The set a call returned (empty when it raised), and whether it
    returned. *)
Definition returned {A} `{Countable A} (r : result (gset A)) : gset A :=
  match r with
  | Ok X => X
  | Raise _ => ∅
  end.

Definition is_Ok {A} (r : result A) : bool :=
  match r with
  | Ok _ => true
  | Raise _ => false
  end.

(** ** Snapshots used in the examples *)

Definition nl : string := String "010" EmptyString.

(** The text of a command's output from its lines. *)
Definition unlines (lines : list string) : string := String.concat nl lines.

(** The answer of [git diff --name-only] for the one range asked about. *)
Definition name_only (range : string) (lines : list string) : string → string :=
  λ asked, if String.eqb asked range then unlines lines else "".

(** An entry of a diff for a change of one kind: an added entry has no old
    blob, a deleted one no new blob, a plain rename or copy keeps its
    blob, a modification or type change replaces it. *)
Definition change (ct : change_type_t) (a_path b_path : string) : Diff :=
  match ct with
  | ct_A => mkDiff ct a_path b_path None (Some "b1")
  | ct_D => mkDiff ct a_path b_path (Some "b0") None
  | ct_R | ct_C => mkDiff ct a_path b_path (Some "b0") (Some "b0")
  | ct_M | ct_T => mkDiff ct a_path b_path (Some "b0") (Some "b1")
  end.

(** A rename whose content is edited on the way. *)
Definition renamed_and_edited (a_path b_path : string) : Diff :=
  mkDiff ct_R a_path b_path (Some "b0") (Some "b1").

(** A repository in which every call answers: the remote references with
    their diffs, the index diff, the status text, the name-only diffs and
    the branch checked out. *)
Definition snapshot (refs : list (string * list Diff)) (index : list Diff)
    (status : string) (name_only : string → string) (branch : string) : Repo :=
  mkRepo (Answer (prod_map id Answer <$> refs))
         (Answer branch)
         (Answer index)
         (Answer status)
         (λ range, Answer (name_only range)).

(** A new file [a.txt] committed on the branch, [b.txt] modified in the
    index only, [c.txt] untracked. *)
Definition repo_scenario : Repo :=
  snapshot [("origin/master", [change ct_A "a.txt" "a.txt"])]
         [change ct_M "b.txt" "b.txt"]
         (unlines ["M  b.txt"; "?? c.txt"])
         (name_only "origin/master...feature" ["a.txt"])
         "feature".

(** [x.txt] renamed to [y.txt] in a commit of the branch. *)
Definition repo_renamed : Repo :=
  snapshot [("origin/master", [change ct_R "x.txt" "y.txt"])]
         []
         ""
         (name_only "origin/master...feature" ["y.txt"])
         "feature".

(** [x.txt] renamed to [y.txt] in a commit of the branch, then [y.txt]
    edited and the edit staged. *)
Definition repo_renamed_then_staged : Repo :=
  snapshot [("origin/master", [change ct_R "x.txt" "y.txt"])]
         [change ct_M "y.txt" "y.txt"]
         (unlines ["M  y.txt"])
         (name_only "origin/master...feature" ["y.txt"])
         "feature".

(** [x.txt] moved to [y.txt] and edited on the way, the whole staged: the
    index diff has one entry, a rename whose blobs differ. *)
Definition repo_staged_rename_edited : Repo :=
  snapshot [("origin/master", [])]
         [renamed_and_edited "x.txt" "y.txt"]
         (unlines ["R  x.txt -> y.txt"])
         (name_only "origin/master...feature" [])
         "feature".

(** The double quote, which the status text puts around a name that
    holds a space. *)
Definition dq : string := String "034" EmptyString.

(** [x.txt] moved to [m y.txt] and the move staged, and an untracked file
    [n y.txt]: both names hold a space and are quoted in the status
    text. *)
Definition repo_quoted_names : Repo :=
  snapshot [("origin/master", [])]
         [change ct_R "x.txt" "m y.txt"]
         (unlines ["R  x.txt -> " ++ dq ++ "m y.txt" ++ dq;
                   "?? " ++ dq ++ "n y.txt" ++ dq])
         (name_only "origin/master...feature" [])
         "feature".

(** The same rename, with [y.txt] edited in the working tree only. *)
Definition repo_renamed_then_edited : Repo :=
  snapshot [("origin/master", [change ct_R "x.txt" "y.txt"])]
         []
         (unlines [" M y.txt"])
         (name_only "origin/master...feature" ["y.txt"])
         "feature".

(** [a.txt] added in a commit of the branch, then removed from the
    working tree. *)
Definition repo_added_then_removed : Repo :=
  snapshot [("origin/master", [change ct_A "a.txt" "a.txt"])]
         []
         (unlines [" D a.txt"])
         (name_only "origin/master...feature" ["a.txt"])
         "feature".



(** [b.txt] removed in a commit of the branch, then [a.txt] moved onto
    [b.txt] and the move staged. *)
Definition repo_removed_then_moved_onto : Repo :=
  snapshot [("origin/master", [change ct_D "b.txt" "b.txt"])]
         [change ct_R "a.txt" "b.txt"]
         (unlines ["R  a.txt -> b.txt"])
         (name_only "origin/master...feature" ["b.txt"])
         "feature".

(** Two remote references, [origin/x] and one named [origin/origin/x];
    the caller's reference ["ororigin/igin/x"] strips to ["origin/x"],
    which strips again to ["x"]. *)
Definition repo_nested_origin : Repo :=
  snapshot [("origin/origin/x", [change ct_D "a.txt" "a.txt"]); ("origin/x", [])]
         [change ct_M "a.txt" "a.txt"]
         (unlines ["M  a.txt"])
         (name_only "origin/x...feature" ["a.txt"])
         "feature".

(** A branch level with its reference and a clean working tree. *)
Definition repo_clean : Repo :=
  snapshot [("origin/master", [])] [] "" (name_only "origin/master...feature" [])
         "feature".


(** A repository without a remote named [origin]: [remote()] raises
    [ValueError]. *)
Definition repo_no_remote : Repo :=
  mkRepo (Failure (ValueError "Remote named 'origin' didn't exist"))
         (Answer "feature")
         (Answer [])
         (Answer "")
         (λ range, Failure (GitCommandError ("git diff --name-only " ++ range))).


(** ** Further vocabulary: status lines and reference names *)

(** What one status line contributes when it is read on its own (nothing
    when reading it raises). *)
Definition line_paths (requested_status line : string) : gset Path :=
  match untracked_line requested_status (mkExtracted ∅ ∅) line with
  | Ok extracted => ex_paths extracted
  | Raise _ => ∅
  end.

Definition line_pairs (requested_status line : string) : gset (Path * Path) :=
  match untracked_line requested_status (mkExtracted ∅ ∅) line with
  | Ok extracted => ex_pairs extracted
  | Raise _ => ∅
  end.

(** The lines of the status text (none when it cannot be had). *)
Definition status_lines (self : GitUtil) : list string :=
  match git_status (repo self) with
  | Answer text => PyStr.split_on "010" text
  | Failure _ => []
  end.

(** The tokens of a status line as [_get_untracked_files] reads them. *)
Definition tokens (line : string) : list string :=
  PyStr.split_ws (PyStr.strip line).

(** The line starts with the untracked marker once stripped. *)
Definition untracked_marker (line : string) : bool :=
  PyStr.startswith (PyStr.strip line) "?".

(** [sub in s]: some suffix of [s] starts with [sub]. *)
Fixpoint contains (s sub : string) : bool :=
  String.prefix sub s ||
  match s with
  | EmptyString => false
  | String _ s' => contains s' sub
  end.




(** ** Text and result lemmas *)

Lemma split_on_not_nil sep s : PyStr.split_on sep s ≠ [].
Proof.
  destruct s as [|c s]; simpl; [done|].
  destruct (Ascii.eqb c sep); [done|].
  by destruct (PyStr.split_on sep s).
Qed.

Lemma split_on_empty_field sep s : PyStr.split_on sep s = [""] → s = "".
Proof.
  destruct s as [|c s]; simpl; [done|].
  destruct (Ascii.eqb c sep).
  - intros [=H]. by destruct (split_on_not_nil sep s).
  - by destruct (PyStr.split_on sep s).
Qed.

(** Stripping removes a leading ["origin/"] and goes on with the rest. *)
Lemma prefix_append p s : String.prefix p (p ++ s) = true.
Proof.
  induction p as [|c p IH]; cbv [append]; fold append.
  - by destruct s.
  - simpl. by destruct (ascii_dec c c).
Qed.

Lemma stripped_origin n : stripped ("origin/" ++ n) = stripped n.
Proof.
  unfold stripped, PyStr.replace.
  pose proof (prefix_append "origin/" n) as E.
  cbv [append] in *. cbn [PyStr.replace_aux]. rewrite E. reflexivity.
Qed.

Lemma is_Ok_returned {A} `{Countable A} (r : result (gset A)) :
  is_Ok r = true → r = Ok (returned r).
Proof. by destruct r. Qed.

(** Closed facts are settled by evaluation. *)
Ltac by_eval :=
  first [ apply is_Ok_returned; vm_compute; reflexivity
        | vm_compute; reflexivity
        | apply (bool_decide_unpack _); vm_compute; exact I ].

Lemma origin_prev_ver_qualified prev_ver :
  PyStr.startswith (origin_prev_ver prev_ver) "origin/" = true.
Proof.
  unfold origin_prev_ver.
  destruct (PyStr.startswith prev_ver "origin/") eqn:E; [exact E |].
  apply prefix_append.
Qed.

(** Each query reads its reference through [stripped] only. *)
Lemma deleted_files_stripped self r1 r2 co so :
  stripped r1 = stripped r2 →
  deleted_files self r1 co so = deleted_files self r2 co so.
Proof. unfold deleted_files, stripped. by intros ->. Qed.

Lemma renamed_files_stripped self r1 r2 co so :
  stripped r1 = stripped r2 →
  renamed_files self r1 co so = renamed_files self r2 co so.
Proof. unfold renamed_files, stripped. by intros ->. Qed.

Lemma modified_files_stripped self r1 r2 co so :
  stripped r1 = stripped r2 →
  modified_files self r1 co so = modified_files self r2 co so.
Proof. unfold modified_files, stripped. by intros ->. Qed.

Lemma added_files_stripped self r1 r2 co so :
  stripped r1 = stripped r2 →
  added_files self r1 co so = added_files self r2 co so.
Proof. unfold added_files, stripped. by intros ->. Qed.

(** ** The scenarios of the specification, evaluated *)

(** A committed new file [a.txt], [b.txt] modified in the index only and
    an untracked [c.txt]: [added_files] returns [a.txt] and [c.txt],
    [modified_files] with [staged_only] returns [b.txt], and
    [deleted_files] returns nothing. *)
Example scenario_added_modified_deleted :
  let w := mkGitUtil repo_scenario in
  added_files w "master" false false
    = Ok (returned (added_files w "master" false false)) ∧
  returned (added_files w "master" false false)
    = {[ mkPath "a.txt"; mkPath "c.txt" ]} ∧
  returned (modified_files w "master" false true) = {[ mkPath "b.txt" ]} ∧
  returned (deleted_files w "master" false false) = ∅.
Proof. cbv zeta. repeat split; by_eval. Qed.

(** [x.txt] renamed to [y.txt] and committed: [renamed_files] returns the
    pair, and neither path is modified or deleted. *)
Example scenario_renamed :
  let w := mkGitUtil repo_renamed in
  returned (renamed_files w "master" false false)
    = {[ (mkPath "x.txt", mkPath "y.txt") ]} ∧
  returned (modified_files w "master" false false) = ∅ ∧
  returned (deleted_files w "master" false false) = ∅.
Proof. cbv zeta. repeat split; by_eval. Qed.

(** ** Prefix normalization (C7) *)

(** C7 — prefix-normalization equivalence: for every branch name [n], every
    query and every flag combination, the reference ['origin/' + n] gives
    the same result as [n] (the same set, or the same exception); the
    filter sets of the two agree; the filter set is read off the name-only
    diff asked about [origin_prev_ver] of the stripped name against the
    branch checked out, and [origin_prev_ver] of the stripped name always
    starts with ['origin/'], is the same for both references, and is the
    stripped name behind ['origin/'] unless that name starts with
    ['origin/'] itself. *)
Theorem prefix_normalization_equivalence (self : GitUtil) (n : string)
    (committed_only staged_only : bool) :
  added_files self ("origin/" ++ n) committed_only staged_only
    = added_files self n committed_only staged_only ∧
  modified_files self ("origin/" ++ n) committed_only staged_only
    = modified_files self n committed_only staged_only ∧
  deleted_files self ("origin/" ++ n) committed_only staged_only
    = deleted_files self n committed_only staged_only ∧
  renamed_files self ("origin/" ++ n) committed_only staged_only
    = renamed_files self n committed_only staged_only ∧
  relevance_filter self ("origin/" ++ n) = relevance_filter self n ∧
  _get_all_changed_files self (stripped n)
    = (branch ← call (active_branch (repo self));
       text ← call (git_diff_name_only (repo self)
                      (origin_prev_ver (stripped n) ++ "..." ++ branch));
       mret (list_to_set (mkPath <$> PyStr.split_on "010" text))) ∧
  origin_prev_ver (stripped ("origin/" ++ n)) = origin_prev_ver (stripped n) ∧
  PyStr.startswith (origin_prev_ver (stripped n)) "origin/" = true ∧
  (PyStr.startswith (stripped n) "origin/" = false →
   origin_prev_ver (stripped n) = "origin/" ++ stripped n).
Proof.
  pose proof (stripped_origin n) as E.
  repeat split.
  - by apply added_files_stripped.
  - by apply modified_files_stripped.
  - by apply deleted_files_stripped.
  - by apply renamed_files_stripped.
  - unfold relevance_filter. by rewrite E.
  - by rewrite E.
  - apply origin_prev_ver_qualified.
  - unfold origin_prev_ver. by intros ->.
Qed.

(** ** The filter set is never empty (C9) *)

(** C9 — when the name-only diff of the qualified reference against the
    branch checked out is the empty text, [_get_all_changed_files] returns
    the singleton of the path ['.'], and for every reference the set it
    returns has an element. *)
Theorem filter_set_of_empty_output (self : GitUtil) (prev_ver : string) :
  (∀ branch, active_branch (repo self) = Answer branch →
     git_diff_name_only (repo self)
       (origin_prev_ver prev_ver ++ "..." ++ branch) = Answer "" →
     _get_all_changed_files self prev_ver = Ok {[ mkPath "." ]}) ∧
  (∀ paths, _get_all_changed_files self prev_ver = Ok paths → paths ≠ ∅).
Proof.
  unfold _get_all_changed_files. split.
  - intros branch Hb Hd. rewrite Hb. cbv [call mbind result_bind].
    rewrite Hd. cbv [mret result_ret]. f_equal.
  - intros paths. cbv [mbind mret result_bind result_ret].
    destruct (call (active_branch (repo self))) as [branch|]; [|done].
    destruct (call (git_diff_name_only _ _)) as [text|]; [|done].
    intros [= <-].
    destruct (PyStr.split_on "010" text) as [|line lines] eqn:E.
    + by destruct (split_on_not_nil _ _ E).
    + simpl. set_solver.
Qed.

Lemma filter_set_of_empty_output_witness :
  _get_all_changed_files (mkGitUtil repo_clean) "master" = Ok {[ mkPath "." ]} ∧
  ∀ paths, _get_all_changed_files (mkGitUtil repo_clean) "master" = Ok paths →
           paths ≠ ∅.
Proof.
  destruct (filter_set_of_empty_output (mkGitUtil repo_clean) "master") as [H1 H2].
  split; [apply (H1 "feature"); reflexivity | exact H2].
Defined.

(** ** Opening the queries *)

#[local] Set Warnings "-clear-no-such-hyp".

Ltac fold_sets :=
  repeat match goal with
    | |- context [list_to_set ((λ item, mkPath (os_path_join (a_path item))) <$>
                               iter_change_type ?d ?ct)] =>
        progress fold (path_set d ct)
    | H : context [list_to_set ((λ item, mkPath (os_path_join (a_path item))) <$>
                               iter_change_type ?d ?ct)] |- _ =>
        progress fold (path_set d ct) in H
    | |- context [list_to_set ((λ item, (mkPath (a_path item), mkPath (b_path item))) <$>
                               iter_change_type ?d ct_R)] =>
        progress fold (pair_set d)
    | H : context [list_to_set ((λ item, (mkPath (a_path item), mkPath (b_path item))) <$>
                               iter_change_type ?d ct_R)] |- _ =>
        progress fold (pair_set d) in H
    end.

(** Unfold the queries, use the stability of the reference when it is
    assumed, evaluate the binds and split on every collaborator call. *)
Ltac open_queries :=
  unfold modified_files, added_files, renamed_files, deleted_files,
    relevance_filter, committed_reports, staged_reports, committed_diff,
    index_diff, untracked_paths, letter, targets, sources, stable,
    stripped in *;
  repeat match goal with
    | H : PyStr.replace ?o ?n (PyStr.replace ?o ?n ?r) = PyStr.replace ?o ?n ?r
      |- _ => rewrite !H in *; clear H
    end;
  cbv [mbind mret result_bind result_ret] in *;
  repeat case_match;
  simplify_eq;
  fold_sets.

(** Membership in a filtered set of pairs and in an image, in hypotheses. *)
Ltac unpack_sets :=
  repeat match goal with
    | H : _ ∈ filter _ _ |- _ => apply elem_of_filter in H as [[? ?] ?]
    | H : _ ∈ set_map _ _ |- _ => apply elem_of_map in H as (? & ? & ?)
    | H : _ ∈ _ ∪ _ |- _ => apply elem_of_union in H as [?|?]
    end;
  cbn beta in *; subst.

(** The images of sets of pairs become atoms: the image of a union is
    split first. *)
Ltac hide_images :=
  rewrite ?set_map_union_L;
  repeat match goal with
    | |- context [@set_map ?A ?C ?E ?B ?D ?Si ?Em ?Un ?f ?S] =>
        generalize (@set_map A C E B D Si Em Un f S); intros ?
    end.
(** ** The branch-relevance filter (C6) *)



(** ** Precedence between the four results (C1, C4, C5) *)

(** C1 — rename precedence, as the code has it: for a stable reference and
    every flag combination, no source path of a pair returned by
    [renamed_files] is in the [modified_files] result of the same
    arguments; with [committed_only] no target path of a returned pair is
    in the [deleted_files] result; in every mode a returned pair whose
    target is in the [deleted_files] result is one of the staged pairs;
    and [added_files] applies no rename exclusion: a target of a returned
    pair that [deleted_files] does not return is in the [added_files]
    result whenever the index diff or the status text reports it added
    (without [committed_only]), or the committed diff reports it added
    and it is in the filter set (with [committed_only], or with neither
    flag). *)
Theorem rename_precedence (self : GitUtil) (reference : string)
    (committed_only staged_only : bool) (pairs : gset (Path * Path)) :
  stable reference →
  renamed_files self reference committed_only staged_only = Ok pairs →
  (∀ X, modified_files self reference committed_only staged_only = Ok X →
     sources pairs ## X) ∧
  (committed_only = true →
   ∀ D, deleted_files self reference committed_only staged_only = Ok D →
     targets pairs ## D) ∧
  (∀ D S, deleted_files self reference committed_only staged_only = Ok D →
     renamed_files self reference false true = Ok S →
     ∀ pr, pr ∈ pairs → pr.2 ∈ D → pr ∈ S) ∧
  (∀ A D, added_files self reference committed_only staged_only = Ok A →
     deleted_files self reference committed_only staged_only = Ok D →
     ∀ p, p ∈ targets pairs → p ∉ D →
       (committed_only = false → p ∈ staged_reports self ct_A → p ∈ A) ∧
       (committed_only = true ∨ staged_only = false →
        p ∈ committed_reports self reference ct_A →
        p ∈ relevance_filter self reference → p ∈ A)).
Proof.
  intros Hst Hp. split; [|split; [|split]].
  - intros X HX. open_queries;
      match goal with |- ?S ## _ => generalize S; intros; set_solver end.
  - intros -> D HD. open_queries.
    intros p Hp HpD. apply elem_of_map in Hp as (pr & -> & Hpr).
    apply elem_of_filter in Hpr as [[_ Hn] _]. by apply Hn.
  - intros D S HD HS pr Hpr HprD. open_queries; unpack_sets; set_solver.
  - intros A D HA HD p _ Hn. split.
    + intros -> Hs. open_queries; set_solver.
    + intros Hm Hc HF. destruct Hm as [-> | ->]; open_queries; set_solver.
Qed.

Lemma rename_precedence_witness :
  let w := mkGitUtil repo_staged_rename_edited in
  mkPath "x.txt" ∈ staged_reports w ct_M ∧
  mkPath "x.txt" ∈ sources (returned (renamed_files w "master" false false)) ∧
  sources (returned (renamed_files w "master" false false))
    ## returned (modified_files w "master" false false).
Proof.
  split; [by_eval | split; [by_eval |]].
  refine (proj1 (rename_precedence (mkGitUtil repo_staged_rename_edited)
                   "master" false false _ _ _) _ _); by_eval.
Defined.

(** C1, as stated, fails for each of the three queries.  Added: the
    status text quotes the names that hold a space, and the last token of
    the line of the untracked [n y.txt] is the last token of the line of
    the rename to [m y.txt]; that path is returned by [added_files] and
    is the target of a returned pair.  Modified: [x.txt] is renamed to
    [y.txt] in a commit and [y.txt] is then edited and staged; [y.txt] is
    the target of the returned pair and is returned by [modified_files].
    Deleted: [b.txt] is removed in a commit and [a.txt] is then moved
    onto [b.txt] and the move staged; [b.txt] is returned by
    [deleted_files] and is the target of a returned pair. *)
Lemma rename_precedence_counterexample :
  ¬ targets_excluded_stated added_files
      (mkGitUtil repo_quoted_names) "master" false false ∧
  ¬ targets_excluded_stated modified_files
      (mkGitUtil repo_renamed_then_staged) "master" false false ∧
  ¬ targets_excluded_stated deleted_files
      (mkGitUtil repo_removed_then_moved_onto) "master" false false.
Proof.
  split; [|split]; intros H.
  - apply (H _ _ ltac:(by_eval) ltac:(by_eval) (mkPath ("y.txt" ++ dq)));
      by_eval.
  - apply (H _ _ ltac:(by_eval) ltac:(by_eval) (mkPath "y.txt")); by_eval.
  - apply (H _ _ ltac:(by_eval) ltac:(by_eval) (mkPath "b.txt")); by_eval.
Qed.

(** C4 — delete precedence, as the code has it: for a stable reference and
    every flag combination the [deleted_files] result is disjoint from the
    [modified_files] result of the same arguments; with [committed_only]
    it is disjoint from the targets of the pairs [renamed_files] returns;
    and in every mode a returned pair whose target is deleted is one of
    the staged pairs. *)
Theorem delete_precedence (self : GitUtil) (reference : string)
    (committed_only staged_only : bool) (D : gset Path) :
  stable reference →
  deleted_files self reference committed_only staged_only = Ok D →
  (∀ X, modified_files self reference committed_only staged_only = Ok X →
     D ## X) ∧
  (committed_only = true →
   ∀ pairs, renamed_files self reference committed_only staged_only = Ok pairs →
     D ## targets pairs) ∧
  (∀ pairs S,
     renamed_files self reference committed_only staged_only = Ok pairs →
     renamed_files self reference false true = Ok S →
     ∀ pr, pr ∈ pairs → pr.2 ∈ D → pr ∈ S).
Proof.
  intros Hst HD. repeat split.
  - intros X HX. open_queries;
      match goal with |- ?S ## _ => generalize S; intros; set_solver end.
  - intros -> pairs Hp. open_queries.
    intros p HpD Hp. apply elem_of_map in Hp as (pr & -> & Hpr).
    apply elem_of_filter in Hpr as [[_ Hn] _]. by apply Hn.
  - intros pairs S Hp HS pr Hpr HprD. open_queries; unpack_sets; set_solver.
Qed.

Lemma delete_precedence_witness :
  let w := mkGitUtil repo_added_then_removed in
  returned (deleted_files w "master" false false)
    ## returned (modified_files w "master" false false).
Proof.
  refine (proj1 (delete_precedence (mkGitUtil repo_added_then_removed)
                   "master" false false _ _ _) _ _); by_eval.
Defined.

(** C4, as stated, fails: [b.txt] is removed in a commit of the branch and
    [a.txt] is then moved onto [b.txt] and the move staged; without flags
    [b.txt] is returned by [deleted_files] and is the target of a pair
    returned by [renamed_files]. *)
Lemma delete_precedence_counterexample :
  ¬ delete_precedence_stated (mkGitUtil repo_removed_then_moved_onto) "master"
      false false.
Proof.
  intros H.
  destruct (H _ ltac:(by_eval) (mkPath "b.txt") ltac:(by_eval)) as (_ & HR).
  apply (HR _ ltac:(by_eval)). by_eval.
Qed.

(** Why the reference is taken stable: each query strips its reference
    and hands the stripped name to the queries it calls, which strip it
    again.  For ["ororigin/igin/x"] the nested [deleted_files] call reads
    another remote reference than the outer one, and [a.txt] is returned
    both by [deleted_files] and by [modified_files]. *)
Lemma unstable_reference_nested_call :
  let w := mkGitUtil repo_nested_origin in
  ¬ stable "ororigin/igin/x" ∧
  mkPath "a.txt" ∈ returned (deleted_files w "ororigin/igin/x" false false) ∧
  mkPath "a.txt" ∈ returned (modified_files w "ororigin/igin/x" false false).
Proof. cbv zeta. split; [by vm_compute | split; by_eval]. Qed.

(** C5 — uniqueness of the reported status, as the code has it: for a
    stable reference and every flag combination the deleted result is
    disjoint from the added and from the modified result, the sources of
    the renamed pairs are disjoint from the modified result, with
    [committed_only] the targets of the renamed pairs are disjoint from
    the deleted result, and the added and modified results are disjoint
    as soon as the raw inputs report no path twice: none both added and
    modified by the committed diff, none added by the index or the status
    text and modified by them or by the committed diff. *)
Theorem unique_status (self : GitUtil) (reference : string)
    (committed_only staged_only : bool) (A M D : gset Path)
    (pairs : gset (Path * Path)) :
  stable reference →
  added_files self reference committed_only staged_only = Ok A →
  modified_files self reference committed_only staged_only = Ok M →
  deleted_files self reference committed_only staged_only = Ok D →
  renamed_files self reference committed_only staged_only = Ok pairs →
  A ## D ∧ M ## D ∧ sources pairs ## M ∧
  (committed_only = true → targets pairs ## D) ∧
  (committed_reports self reference ct_A ## committed_reports self reference ct_M →
   staged_reports self ct_A
     ## staged_reports self ct_M ∪ committed_reports self reference ct_M →
   A ## M).
Proof.
  intros Hst HA HM HD Hp. repeat split.
  - open_queries; set_solver.
  - open_queries; set_solver.
  - open_queries;
      match goal with |- ?S ## _ => generalize S; intros; set_solver end.
  - intros ->. open_queries.
    intros p Hp HpD. apply elem_of_map in Hp as (pr & -> & Hpr).
    apply elem_of_filter in Hpr as [[_ Hn] _]. by apply Hn.
  - intros Hc Hs. open_queries;
      repeat match goal with
        | |- context [set_map fst ?S] => generalize (set_map fst S); intros ?
        end;
      set_solver.
Qed.

Lemma unique_status_witness :
  let w := mkGitUtil repo_scenario in
  returned (added_files w "master" false false)
    ## returned (modified_files w "master" false false).
Proof.
  refine (proj2 (proj2 (proj2 (proj2
            (unique_status (mkGitUtil repo_scenario) "master" false false
               _ _ _ _ _ _ _ _ _)))) _ _); by_eval.
Defined.

(** C5, as stated, fails: [x.txt] is renamed to [y.txt] in a commit and
    [y.txt] is then edited in the working tree; [y.txt] is returned by
    [modified_files] and is the target of the pair [renamed_files]
    returns. *)
Lemma unique_status_counterexample :
  ¬ unique_status_stated (mkGitUtil repo_renamed_then_edited) "master"
      false false.
Proof.
  intros H.
  destruct (H _ _ _ _ ltac:(by_eval) ltac:(by_eval) ltac:(by_eval) ltac:(by_eval))
    as (_ & _ & _ & _ & HM & _).
  apply (HM (mkPath "y.txt")); by_eval.
Qed.

(** ** The three modes of a query (C2) *)

(** C2 — the modes of a query, as the code has them, for a stable
    reference.  For [deleted_files] the two restricted results lie in the
    unrestricted one, which is their union.  The other queries subtract
    the deleted set of their own mode, so a restricted result may hold
    what the unrestricted one drops: the unrestricted [added_files]
    result is the union of the restricted ones without the unrestricted
    deleted paths; the unrestricted [renamed_files] result holds the
    staged pairs and the committed pairs whose target is not in the
    unrestricted deleted set, and nothing else; the unrestricted
    [modified_files] result holds every path of the restricted results
    that is neither deleted nor a renamed source in the unrestricted
    mode, and nothing outside the restricted results and the sources of
    the committed pairs. *)
Theorem mode_union (self : GitUtil) (reference : string) :
  stable reference →
  modes_agree (deleted_files self reference) ∧
  (∀ C S U D,
     added_files self reference true false = Ok C →
     added_files self reference false true = Ok S →
     added_files self reference false false = Ok U →
     deleted_files self reference false false = Ok D →
     U = (C ∪ S) ∖ D) ∧
  (∀ C S U D,
     renamed_files self reference true false = Ok C →
     renamed_files self reference false true = Ok S →
     renamed_files self reference false false = Ok U →
     deleted_files self reference false false = Ok D →
     S ⊆ U ∧ U ⊆ C ∪ S ∧ ∀ pr, pr ∈ C → pr.2 ∉ D → pr ∈ U) ∧
  (∀ C S U D pairs pairs_c,
     modified_files self reference true false = Ok C →
     modified_files self reference false true = Ok S →
     modified_files self reference false false = Ok U →
     deleted_files self reference false false = Ok D →
     renamed_files self reference false false = Ok pairs →
     renamed_files self reference true false = Ok pairs_c →
     (C ∪ S) ∖ sources pairs ∖ D ⊆ U ∧ U ⊆ C ∪ S ∪ sources pairs_c).
Proof.
  intros Hst. repeat split.
  - open_queries; set_solver.
  - open_queries; set_solver.
  - open_queries; set_solver.
  - open_queries; set_solver.
  - open_queries; set_solver.
  - open_queries. intros pr Hpr.
    unpack_sets; rewrite ?elem_of_union, ?elem_of_filter; cbn beta; set_solver.
  - open_queries. intros pr Hpr Hn.
    apply elem_of_filter in Hpr as [[? ?] ?].
    rewrite elem_of_union, elem_of_filter; cbn beta. set_solver.
  - open_queries; hide_images; set_solver.
  - open_queries; hide_images; intros x Hx;
      match goal with
      | |- x ∈ _ ∪ ?c => destruct (decide (x ∈ c)); [set_solver|]
      end;
      set_solver.
Qed.

Lemma mode_union_witness :
  let w := mkGitUtil repo_added_then_removed in
  returned (added_files w "master" false false)
  = (returned (added_files w "master" true false)
     ∪ returned (added_files w "master" false true))
    ∖ returned (deleted_files w "master" false false).
Proof.
  refine (proj1 (proj2 (mode_union (mkGitUtil repo_added_then_removed) "master" _))
            _ _ _ _ _ _ _ _); by_eval.
Defined.

(** C2, as stated, fails: [a.txt] is added in a commit of the branch and
    then removed from the working tree; [added_files] returns it with
    [committed_only] and does not return it without flags. *)
Lemma mode_union_counterexample :
  ¬ mode_union_stated (mkGitUtil repo_added_then_removed) "master".
Proof.
  intros (HA & _).
  destruct (HA _ _ _ ltac:(by_eval) ltac:(by_eval) ltac:(by_eval)) as (HCU & _).
  assert (Hn : mkPath "a.txt"
               ∉ returned (added_files (mkGitUtil repo_added_then_removed)
                             "master" false false)) by by_eval.
  apply Hn, HCU. by_eval.
Qed.

(** ** Added, then modified locally (C3, C10) *)











(** ** Errors (C8) *)

Lemma item_last_nonempty {A} (l : list A) :
  l ≠ [] → ∃ x, item_last l = Ok x.
Proof.
  intros Hl. unfold item_last. destruct (rev l) as [|x r] eqn:E; simpl; [|eauto].
  apply (f_equal (@List.length A)) in E. rewrite length_rev in E.
  by destruct l.
Qed.

Lemma item_last_but_one_two {A} (l : list A) :
  (2 ≤ List.length l)%nat → ∃ x, item_last_but_one l = Ok x.
Proof.
  intros Hl. unfold item_last_but_one.
  destruct (rev l) as [|y [|x r]] eqn:E; [| |eauto];
    apply (f_equal (@List.length A)) in E; rewrite length_rev in E;
    simpl in E; lia.
Qed.

Lemma item_first_raises {A} (l : list A) e :
  item_first l = Raise e → e = IndexError_list_index.
Proof. destruct l; simpl; congruence. Qed.

Lemma item_last_raises {A} (l : list A) e :
  item_last l = Raise e → e = IndexError_list_index.
Proof. apply item_first_raises. Qed.

Lemma item_last_but_one_raises {A} (l : list A) e :
  item_last_but_one l = Raise e → e = IndexError_list_index.
Proof.
  unfold item_last_but_one. destruct (rev l) as [|y [|x r]]; congruence.
Qed.


Lemma untracked_line_raises requested_status extracted line e :
  untracked_line requested_status extracted line = Raise e →
  e = IndexError_list_index.
Proof.
  unfold untracked_line. cbv [mbind mret result_bind result_ret].
  intros H.
  repeat case_match; simplify_eq;
    eauto using item_first_raises, item_last_raises, item_last_but_one_raises.
Qed.















(** Why [remote()] is taken to answer: without a remote named [origin]
    no reference resolves, and a query raises the [ValueError] of
    [remote()], which is not the unknown-reference error. *)
Example no_remote_is_not_unknown_reference :
  let w := mkGitUtil repo_no_remote in
  ¬ resolves w "master" ∧
  deleted_files w "master" false false
    = Raise (Raised_by_git (ValueError "Remote named 'origin' didn't exist")).
Proof. cbv zeta. split; [by intros (refs & [=] & _) | by vm_compute]. Qed.




(** ** Reading the status text *)

Lemma split_ws_aux_run s : ∀ cur, cur ≠ [] →
  ∃ t ts rest, PyStr.split_ws_aux cur s = t :: ts
               ∧ t = string_of_list_ascii (rev cur ++ rest).
Proof.
  induction s as [|c s IH]; intros cur Hcur; simpl.
  - destruct cur; [done|]. exists (string_of_list_ascii (rev (a :: cur))), [], [].
    by rewrite app_nil_r.
  - destruct (PyStr.isspace c).
    + destruct cur; [done|].
      exists (string_of_list_ascii (rev (a :: cur))), (PyStr.split_ws_aux [] s), [].
      by rewrite app_nil_r.
    + destruct (IH (c :: cur) ltac:(done)) as (t & ts & rest & -> & ->).
      exists (string_of_list_ascii (rev (c :: cur) ++ rest)), ts, (c :: rest).
      split; [done|]. simpl. by rewrite <- app_assoc.
Qed.

(** A text that starts with ['?'] has a first token, which starts with
    ['?']. *)
Lemma split_ws_marker s :
  PyStr.startswith s "?" = true →
  ∃ t ts, PyStr.split_ws s = String "?" t :: ts.
Proof.
  unfold PyStr.startswith, PyStr.split_ws.
  destruct s as [|c s]; [done|].
  change (String.prefix "?" (String c s))
    with (if ascii_dec "?" c then String.prefix "" s else false).
  destruct (ascii_dec "?" c) as [<-|]; [|done]. intros _.
  destruct (split_ws_aux_run s ["?"%char] ltac:(done)) as (t & ts & rest & H & ->).
  change (PyStr.split_ws_aux [] (String "?" s))
    with (PyStr.split_ws_aux ["?"%char] s).
  rewrite H. simpl. eauto.
Qed.

Lemma upper_length s : String.length (PyStr.upper s) = String.length s.
Proof. induction s; simpl; congruence. Qed.

Lemma tokens_of_marker line :
  untracked_marker line = true → ∃ t ts, tokens line = String "?" t :: ts.
Proof. apply split_ws_marker. Qed.

(** X1 — a status line that starts with the untracked marker ['?'] is read
    as Added whatever follows the marker: asked for ['A'] the line adds
    the path of its last token, asked for any other status it is
    skipped; it never raises. *)
Theorem untracked_marker_is_added (requested_status : string)
    (extracted : Extracted) (line : string) :
  untracked_marker line = true →
  ∃ path, item_last (tokens line) = Ok path ∧
    untracked_line "A" extracted line
      = Ok (mkExtracted ({[ mkPath path ]} ∪ ex_paths extracted)
              (ex_pairs extracted)) ∧
    (requested_status ≠ "A" →
     untracked_line requested_status extracted line = Ok extracted).
Proof.
  intros Hm. destruct (tokens_of_marker line Hm) as (t & ts & Ht).
  destruct (item_last_nonempty (tokens line)) as [path Hp];
    [by rewrite Ht|].
  exists path. split; [done|].
  unfold untracked_line. unfold untracked_marker in Hm. unfold tokens in Hp.
  rewrite Hm, Hp. cbv [mbind mret result_bind result_ret negb].
  split; [done|].
  intros Hne. by destruct (String.eqb_spec "A" requested_status).
Qed.

Lemma untracked_marker_is_added_witness :
  ∃ path, item_last (tokens "?? c.txt") = Ok path ∧
    untracked_line "A" (mkExtracted ∅ ∅) "?? c.txt"
      = Ok (mkExtracted ({[ mkPath path ]} ∪ ∅) ∅) ∧
    ("M" ≠ "A" → untracked_line "M" (mkExtracted ∅ ∅) "?? c.txt"
                 = Ok (mkExtracted ∅ ∅)).
Proof.
  apply (untracked_marker_is_added "M" (mkExtracted ∅ ∅) "?? c.txt").
  reflexivity.
Defined.

(** X2 — reading one status line raises exactly when the line has no
    token, or when renames are asked for and the line is the lone status
    code [R] (in either case); the error is the list-index error. *)
Theorem untracked_line_raises_iff (requested_status : string)
    (extracted : Extracted) (line : string) (e : exn) :
  untracked_line requested_status extracted line = Raise e ↔
  e = IndexError_list_index ∧
  (tokens line = [] ∨
   (requested_status = "R" ∧ ∃ t, tokens line = [t] ∧ PyStr.upper t = "R")).
Proof.
  split.
  - intros H. split; [by eapply untracked_line_raises|].
    revert H. unfold untracked_line, tokens.
    destruct (PyStr.startswith (PyStr.strip line) "?") eqn:Hm.
    + destruct (untracked_marker_is_added requested_status extracted line Hm)
        as (path & Hp & HA & Hother).
      destruct (String.eqb_spec requested_status "A") as [->|Hne].
      * intros H. unfold untracked_line in HA. rewrite Hm in HA.
        rewrite HA in H. discriminate.
      * intros H. unfold untracked_line in Hother. rewrite Hm in Hother.
        rewrite (Hother Hne) in H. discriminate.
    + destruct (PyStr.split_ws (PyStr.strip line)) as [|t [|t2 ts]] eqn:Ht;
        cbv [mbind mret result_bind result_ret negb item_first];
        [by left| |].
      * destruct (String.eqb_spec (PyStr.upper t) requested_status) as [<-|];
          [|done].
        destruct (String.eqb_spec (PyStr.upper t) "R") as [E|]; [|done].
        intros _. right. eauto.
      * destruct (item_last_but_one_two (t :: t2 :: ts)) as [x ->];
          [simpl; lia|].
        destruct (item_last_nonempty (t :: t2 :: ts)) as [y ->]; [done|].
        repeat case_match; done.
  - intros [-> [Ht | (-> & t & Ht & Hu)]].
    + unfold untracked_line. unfold tokens in Ht.
      destruct (PyStr.startswith (PyStr.strip line) "?") eqn:Hm.
      * destruct (tokens_of_marker line Hm) as (t & ts & Ht').
        unfold tokens in Ht'. congruence.
      * by rewrite Ht.
    + unfold untracked_line. unfold tokens in Ht.
      destruct (PyStr.startswith (PyStr.strip line) "?") eqn:Hm.
      * destruct (tokens_of_marker line Hm) as (t' & ts & Ht').
        unfold tokens in Ht'. rewrite Ht in Ht'. by simplify_eq.
      * rewrite Ht. cbv [mbind mret result_bind result_ret negb item_first].
        rewrite Hu. reflexivity.
Qed.

(** X3 — a status line whose first token is a two-letter code (a staged
    change with a further change in the working tree, such as [MM],
    [AM] or [RM]) is skipped for every one-letter status asked for. *)
Theorem two_letter_status_skipped (requested_status : string)
    (extracted : Extracted) (line t : string) (ts : list string) :
  untracked_marker line = false →
  tokens line = t :: ts →
  String.length t = 2%nat →
  String.length requested_status = 1%nat →
  untracked_line requested_status extracted line = Ok extracted.
Proof.
  unfold untracked_marker, tokens, untracked_line. intros -> -> Ht Hr.
  cbv [mbind mret result_bind result_ret negb item_first].
  destruct (String.eqb_spec (PyStr.upper t) requested_status) as [E|]; [|done].
  apply (f_equal String.length) in E. rewrite upper_length in E. lia.
Qed.

Lemma two_letter_status_skipped_witness :
  untracked_line "M" (mkExtracted ∅ ∅) "MM a.txt" = Ok (mkExtracted ∅ ∅).
Proof.
  apply (two_letter_status_skipped "M" (mkExtracted ∅ ∅) "MM a.txt"
           "MM" ["a.txt"]); reflexivity.
Defined.

(** X4 — a rename line of the status text, [R old -> new], yields a pair
    whose first component is the path of the arrow token and not of
    [old]: the pair is built from the last two tokens of the line. *)
Theorem status_rename_source_is_arrow (extracted : Extracted)
    (line code old new : string) :
  untracked_marker line = false →
  tokens line = [code; old; "->"; new] →
  PyStr.upper code = "R" →
  untracked_line "R" extracted line
  = Ok (mkExtracted (ex_paths extracted)
          ({[ (mkPath "->", mkPath new) ]} ∪ ex_pairs extracted)).
Proof.
  unfold untracked_marker, tokens, untracked_line. intros -> -> Hc.
  cbv [mbind mret result_bind result_ret negb item_first].
  rewrite Hc. reflexivity.
Qed.

Lemma status_rename_source_is_arrow_witness :
  untracked_line "R" (mkExtracted ∅ ∅) "R  a.txt -> b.txt"
  = Ok (mkExtracted ∅ ({[ (mkPath "->", mkPath "b.txt") ]} ∪ ∅)).
Proof.
  apply (status_rename_source_is_arrow (mkExtracted ∅ ∅) "R  a.txt -> b.txt"
           "R" "a.txt" "b.txt"); reflexivity.
Defined.

(** Reading a line adds what the line contributes on its own to what was
    extracted before, and whether it raises does not depend on that. *)
Lemma untracked_line_acc requested_status extracted line extracted' :
  untracked_line requested_status extracted line = Ok extracted' →
  ex_paths extracted' = line_paths requested_status line ∪ ex_paths extracted ∧
  ex_pairs extracted' = line_pairs requested_status line ∪ ex_pairs extracted.
Proof.
  unfold line_paths, line_pairs, untracked_line.
  cbv [mbind mret result_bind result_ret]. intros H.
  repeat case_match; simplify_eq; simpl; split; set_solver.
Qed.

Lemma untracked_line_returns_any requested_status extracted1 extracted2 line :
  returns (untracked_line requested_status extracted1 line) →
  returns (untracked_line requested_status extracted2 line).
Proof.
  unfold returns, untracked_line.
  cbv [mbind mret result_bind result_ret]. intros [a H].
  repeat case_match; simplify_eq; eauto.
Qed.

Lemma untracked_loop_acc requested_status lines : ∀ extracted extracted',
  untracked_loop requested_status extracted lines = Ok extracted' →
  (∀ p, p ∈ ex_paths extracted' ↔
        p ∈ ex_paths extracted
        ∨ ∃ line, line ∈ lines ∧ p ∈ line_paths requested_status line) ∧
  (∀ pr, pr ∈ ex_pairs extracted' ↔
         pr ∈ ex_pairs extracted
         ∨ ∃ line, line ∈ lines ∧ pr ∈ line_pairs requested_status line).
Proof.
  induction lines as [|line lines IH]; intros extracted extracted'; simpl.
  - intros [= <-]. split; intros; set_solver.
  - destruct (untracked_line requested_status extracted line) as [e1|] eqn:E;
      simpl; [|done].
    intros H. apply IH in H as [Hp Hq].
    apply untracked_line_acc in E as [Ep Eq].
    split; intros x; [rewrite Hp, Ep | rewrite Hq, Eq]; set_solver.
Qed.

Lemma untracked_loop_returns_iff requested_status lines : ∀ extracted,
  returns (untracked_loop requested_status extracted lines) ↔
  Forall (λ line, returns (untracked_line requested_status (mkExtracted ∅ ∅) line))
         lines.
Proof.
  induction lines as [|line lines IH]; intros extracted; simpl.
  - split; [constructor | by eexists].
  - rewrite Forall_cons. split.
    + intros [a H].
      destruct (untracked_line requested_status extracted line) as [e1|] eqn:E;
        simpl in H; [|done].
      split.
      * eapply untracked_line_returns_any. by eexists.
      * apply (IH e1). by eexists.
    + intros [Hl Hls].
      destruct (untracked_line_returns_any requested_status _ extracted line Hl)
        as [e1 ->].
      simpl. by apply IH.
Qed.

(** X5 — the set [_get_untracked_files] returns is the union of what the
    lines of the status text contribute one by one: a path (or a pair) is
    in it exactly when some line, read on its own, yields it. *)
Theorem untracked_files_by_line (self : GitUtil) (requested_status : string)
    (extracted : Extracted) :
  _get_untracked_files self requested_status = Ok extracted →
  (∀ p, p ∈ ex_paths extracted ↔
        ∃ line, line ∈ status_lines self
                ∧ p ∈ line_paths requested_status line) ∧
  (∀ pr, pr ∈ ex_pairs extracted ↔
         ∃ line, line ∈ status_lines self
                 ∧ pr ∈ line_pairs requested_status line).
Proof.
  unfold _get_untracked_files, status_lines. intros H.
  destruct (git_status (repo self)) as [text|]; [|done].
  cbv [call mbind result_bind] in H.
  assert (Hempty : line_paths requested_status "" = ∅
                   ∧ line_pairs requested_status "" = ∅).
  { unfold line_paths, line_pairs. split; reflexivity. }
  destruct Hempty as [Hp0 Hq0].
  destruct (PyStr.split_on "010" text)
    as [|first rest] eqn:E; [|destruct first, rest].
  - apply untracked_loop_acc in H as [Hp Hq].
    split; intros x; [rewrite Hp | rewrite Hq]; set_solver.
  - cbv [mret result_ret] in H. simplify_eq. simpl.
    split; intros x; split; try set_solver.
    + intros (line & Hl & Hx). apply list_elem_of_singleton in Hl as ->.
      rewrite Hp0 in Hx. set_solver.
    + intros (line & Hl & Hx). apply list_elem_of_singleton in Hl as ->.
      rewrite Hq0 in Hx. set_solver.
  - apply untracked_loop_acc in H as [Hp Hq].
    split; intros x; [rewrite Hp | rewrite Hq]; set_solver.
  - apply untracked_loop_acc in H as [Hp Hq].
    split; intros x; [rewrite Hp | rewrite Hq]; set_solver.
  - apply untracked_loop_acc in H as [Hp Hq].
    split; intros x; [rewrite Hp | rewrite Hq]; set_solver.
Qed.

Lemma untracked_files_by_line_witness :
  let w := mkGitUtil repo_scenario in
  mkPath "c.txt" ∈ untracked_paths w "A" ↔
  ∃ line, line ∈ status_lines w
          ∧ mkPath "c.txt" ∈ line_paths "A" line.
Proof.
  refine (proj1 (untracked_files_by_line (mkGitUtil repo_scenario) "A"
                   (mkExtracted (untracked_paths (mkGitUtil repo_scenario) "A") ∅)
                   _) (mkPath "c.txt")).
  vm_compute. reflexivity.
Defined.

(** X6 — neither the order of the status lines nor a repeated line
    matters: two lists with the same lines are read to the same set, and
    the reading of one raises exactly when the reading of the other
    does. *)
Theorem untracked_loop_same_lines (requested_status : string)
    (extracted : Extracted) (lines lines' : list string) :
  (∀ line, line ∈ lines ↔ line ∈ lines') →
  (∀ a, untracked_loop requested_status extracted lines = Ok a →
        untracked_loop requested_status extracted lines' = Ok a) ∧
  (returns (untracked_loop requested_status extracted lines) ↔
   returns (untracked_loop requested_status extracted lines')).
Proof.
  intros Hsame.
  assert (Hret : returns (untracked_loop requested_status extracted lines) ↔
                 returns (untracked_loop requested_status extracted lines')).
  { rewrite !untracked_loop_returns_iff, !Forall_forall.
    split; intros H line Hl; apply H, Hsame, Hl. }
  split; [|done].
  intros a Ha.
  destruct (proj1 Hret ltac:(by eexists)) as [a' Ha'].
  rewrite Ha'. f_equal.
  apply untracked_loop_acc in Ha as [Hp Hq].
  apply untracked_loop_acc in Ha' as [Hp' Hq'].
  destruct a as [ap aq], a' as [ap' aq']. simpl in *. f_equal.
  - apply set_eq. intros x. rewrite Hp, Hp'.
    split; (intros [?|(line & Hl & ?)]; [by left|]; right; exists line;
            split; [by apply Hsame | done]).
  - apply set_eq. intros x. rewrite Hq, Hq'.
    split; (intros [?|(line & Hl & ?)]; [by left|]; right; exists line;
            split; [by apply Hsame | done]).
Qed.

Lemma untracked_loop_same_lines_witness :
  returns (untracked_loop "A" (mkExtracted ∅ ∅) ["M  b.txt"; "?? c.txt"]) ↔
  returns (untracked_loop "A" (mkExtracted ∅ ∅)
             ["?? c.txt"; "M  b.txt"; "?? c.txt"]).
Proof.
  refine (proj2 (untracked_loop_same_lines "A" (mkExtracted ∅ ∅)
                   ["M  b.txt"; "?? c.txt"]
                   ["?? c.txt"; "M  b.txt"; "?? c.txt"] _)).
  intros line. rewrite !elem_of_cons, !elem_of_nil. tauto.
Defined.

(** ** The flags and what each mode reads *)

(** X7 — [committed_only] wins over [staged_only]: with both flags set
    every query returns what it returns with [committed_only] alone. *)
Theorem committed_only_wins (self : GitUtil) (reference : string) :
  added_files self reference true true = added_files self reference true false ∧
  modified_files self reference true true
    = modified_files self reference true false ∧
  deleted_files self reference true true
    = deleted_files self reference true false ∧
  renamed_files self reference true true
    = renamed_files self reference true false.
Proof. repeat split; reflexivity. Qed.



Lemma remote_commit_diff_same_refs (r1 r2 : Repo) name :
  remote_refs r1 = remote_refs r2 → active_branch r1 = active_branch r2 →
  remote_commit_diff r1 name = remote_commit_diff r2 name.
Proof. unfold remote_commit_diff. by intros -> ->. Qed.

Lemma _get_all_changed_files_same_diff (r1 r2 : Repo) prev_ver :
  (∀ range, git_diff_name_only r1 range = git_diff_name_only r2 range) →
  active_branch r1 = active_branch r2 →
  _get_all_changed_files (mkGitUtil r1) prev_ver
  = _get_all_changed_files (mkGitUtil r2) prev_ver.
Proof.
  unfold _get_all_changed_files. simpl. intros Hd ->.
  destruct (active_branch r2); simpl; [by rewrite Hd|done].
Qed.

(** X9 — with [committed_only] the result depends on the committed side
    only: two snapshots with the same remote references, the same
    name-only diffs and the same branch give the same result, whatever
    their index and their status text hold. *)
Theorem committed_only_ignores_working_tree (r1 r2 : Repo)
    (reference : string) (staged_only : bool) :
  remote_refs r1 = remote_refs r2 →
  (∀ range, git_diff_name_only r1 range = git_diff_name_only r2 range) →
  active_branch r1 = active_branch r2 →
  added_files (mkGitUtil r1) reference true staged_only
    = added_files (mkGitUtil r2) reference true staged_only ∧
  modified_files (mkGitUtil r1) reference true staged_only
    = modified_files (mkGitUtil r2) reference true staged_only ∧
  deleted_files (mkGitUtil r1) reference true staged_only
    = deleted_files (mkGitUtil r2) reference true staged_only ∧
  renamed_files (mkGitUtil r1) reference true staged_only
    = renamed_files (mkGitUtil r2) reference true staged_only.
Proof.
  intros Hrefs Hdiff Hbranch.
  pose proof (λ name, remote_commit_diff_same_refs r1 r2 name Hrefs Hbranch)
    as HR.
  pose proof (λ pv, _get_all_changed_files_same_diff r1 r2 pv Hdiff Hbranch) as HF.
  assert (HD : ∀ pv, deleted_files (mkGitUtil r1) pv true staged_only
                     = deleted_files (mkGitUtil r2) pv true staged_only).
  { intros pv. unfold deleted_files. simpl repo. by rewrite HR, HF. }
  assert (HN : ∀ pv, renamed_files (mkGitUtil r1) pv true staged_only
                     = renamed_files (mkGitUtil r2) pv true staged_only).
  { intros pv. unfold renamed_files. simpl repo. by rewrite HD, HR, HF. }
  repeat split; [| |apply HD|apply HN].
  - unfold added_files. simpl repo. by rewrite HD, HR, HF.
  - unfold modified_files. simpl repo. by rewrite HN, HD, HR, HF.
Qed.

Lemma committed_only_ignores_working_tree_witness :
  renamed_files (mkGitUtil repo_renamed_then_staged) "master" true false
  = renamed_files (mkGitUtil repo_renamed_then_edited) "master" true false.
Proof.
  refine (proj2 (proj2 (proj2 (committed_only_ignores_working_tree
            repo_renamed_then_staged repo_renamed_then_edited "master" false
            _ _ _)))); reflexivity.
Defined.



(** X11 — nothing staged as new is lost: a path that the index diff or
    the status text reports as added (an untracked file among them) is in
    the [added_files] result, without flags and with [staged_only],
    unless [deleted_files] returns it for the same arguments. *)
Theorem staged_added_is_reported (self : GitUtil) (reference : string)
    (staged_only : bool) (p : Path) (X D : gset Path) :
  stable reference →
  p ∈ staged_reports self ct_A →
  added_files self reference false staged_only = Ok X →
  deleted_files self reference false staged_only = Ok D →
  p ∉ D →
  p ∈ X.
Proof. intros Hst Hp HX HD Hn. open_queries; set_solver. Qed.

Lemma staged_added_is_reported_witness :
  mkPath "c.txt" ∈ returned (added_files (mkGitUtil repo_scenario) "master"
                               false false).
Proof.
  refine (staged_added_is_reported (mkGitUtil repo_scenario) "master" false
            (mkPath "c.txt") _ (returned (deleted_files (mkGitUtil repo_scenario)
                                            "master" false false))
            _ _ _ _ _); by_eval.
Defined.

(** X12 — [_get_all_changed_files] takes the reference with or without
    the remote prefix: for a name that does not start with ['origin/']
    the qualified and the bare name give the same set. *)
Theorem changed_files_prefix_insensitive (self : GitUtil) (n : string) :
  PyStr.startswith n "origin/" = false →
  _get_all_changed_files self ("origin/" ++ n) = _get_all_changed_files self n.
Proof.
  intros Hn. unfold _get_all_changed_files, origin_prev_ver.
  unfold PyStr.startswith in *. by rewrite prefix_append, Hn.
Qed.

Lemma changed_files_prefix_insensitive_witness :
  _get_all_changed_files (mkGitUtil repo_scenario) ("origin/" ++ "master")
  = _get_all_changed_files (mkGitUtil repo_scenario) "master".
Proof.
  apply (changed_files_prefix_insensitive (mkGitUtil repo_scenario) "master").
  reflexivity.
Defined.

(** ** Stripping the remote prefix *)

Lemma replace_aux_absent old new s :
  contains s old = false → PyStr.replace_aux old new 0 s = s.
Proof.
  induction s as [|c s IH]; [done|].
  cbn [contains PyStr.replace_aux]. intros H.
  apply orb_false_iff in H as [-> H]. by rewrite IH.
Qed.

(** X13 — for a name in which ['origin/'] does not occur, stripping
    changes nothing, stripping the name behind ['origin/'] gives the name
    back, and both forms are stable references. *)
Theorem stripped_bare_name (n : string) :
  contains n "origin/" = false →
  stripped n = n ∧ stripped ("origin/" ++ n) = n ∧
  stable n ∧ stable ("origin/" ++ n).
Proof.
  intros Hn.
  assert (E : stripped n = n) by by apply replace_aux_absent.
  assert (E' : stripped ("origin/" ++ n) = n) by by rewrite stripped_origin.
  unfold stable. by rewrite E', E.
Qed.

Lemma stripped_bare_name_witness :
  stripped "master" = "master" ∧ stripped ("origin/" ++ "master") = "master" ∧
  stable "master" ∧ stable ("origin/" ++ "master").
Proof. apply (stripped_bare_name "master"). reflexivity. Defined.

Lemma prefix_empty s : String.prefix "" s = true.
Proof. by destruct s. Qed.

Lemma prefix_of_append p : ∀ x y,
  (String.length p ≤ String.length x)%nat →
  String.prefix p (x ++ y) = String.prefix p x.
Proof.
  induction p as [|a p IH]; intros x y Hl.
  - by rewrite !prefix_empty.
  - destruct x as [|b x]; [simpl in Hl; lia|].
    change (String b x ++ y) with (String b (x ++ y)).
    change (String.prefix (String a p) (String b (x ++ y)))
      with (if ascii_dec a b then String.prefix p (x ++ y) else false).
    change (String.prefix (String a p) (String b x))
      with (if ascii_dec a b then String.prefix p x else false).
    destruct (ascii_dec a b); [|done]. apply IH. simpl in Hl. lia.
Qed.

Lemma prefix_through p : ∀ x u v,
  (String.length p ≤ String.length x + String.length u)%nat →
  String.prefix p (x ++ u ++ v) = String.prefix p (x ++ u).
Proof.
  induction p as [|a p IH]; intros x u v Hl.
  - by rewrite !prefix_empty.
  - destruct x as [|b x].
    + change ("" ++ u ++ v) with (u ++ v). change ("" ++ u) with u.
      by apply prefix_of_append.
    + change (String b x ++ u ++ v) with (String b (x ++ u ++ v)).
      change (String b x ++ u) with (String b (x ++ u)).
      change (String.prefix (String a p) (String b (x ++ u ++ v)))
        with (if ascii_dec a b then String.prefix p (x ++ u ++ v) else false).
      change (String.prefix (String a p) (String b (x ++ u)))
        with (if ascii_dec a b then String.prefix p (x ++ u) else false).
      destruct (ascii_dec a b); [|done]. apply IH. simpl in Hl. lia.
Qed.

(** X14 — stripping removes ['origin/'] wherever it stands, not only in
    front: when no occurrence starts inside [a], the reference
    [a + 'origin/' + b] strips to [a] followed by the stripped [b]. *)
Theorem stripped_inner_occurrence (a b : string) :
  contains (a ++ "origin") "origin/" = false →
  stripped (a ++ "origin/" ++ b) = a ++ stripped b.
Proof.
  induction a as [|c a IH]; intros H.
  - apply stripped_origin.
  - change (String c a ++ "origin") with (String c (a ++ "origin")) in H.
    cbn [contains] in H. apply orb_false_iff in H as [Hp H].
    change (String c a ++ "origin/" ++ b)
      with (String c (a ++ "origin/" ++ b)).
    change (String c a ++ stripped b) with (String c (a ++ stripped b)).
    assert (Hq : String.prefix "origin/" (String c (a ++ "origin/" ++ b))
                 = false).
    { etrans; [|exact Hp].
      change (String c (a ++ "origin/" ++ b))
        with (String c a ++ "origin" ++ "/" ++ b).
      change (String c (a ++ "origin")) with (String c a ++ "origin").
      apply prefix_through. simpl. lia. }
    rewrite <- (IH H). unfold stripped, PyStr.replace.
    cbn [PyStr.replace_aux]. by rewrite Hq.
Qed.

Lemma stripped_inner_occurrence_witness :
  stripped ("feature/" ++ "origin/" ++ "x") = "feature/" ++ stripped "x".
Proof. apply (stripped_inner_occurrence "feature/" "x"). reflexivity. Defined.
